(** * CDK application-delivery pipeline: constructs and their properties

    A shallow embedding of
      - [packages/@aws-cdk/app-delivery/lib/pipeline.ts]  (class [Pipeline])
      - the [DeployAction] class, found in the second part of
        [packages/@aws-cdk/aws-stepfunctions-tasks/rosetta/with-batch-job.ts-fixture]
    together with the properties of the delivery pipeline they assemble.

    JavaScript strings are modelled as [string], arrays as [list], optional
    properties ([p?: T], value [undefined] when absent) as [option T].
    Constructors and methods that create constructs, mutate objects or throw
    are written in a small state-and-exception monad whose final state stays
    observable when an exception is thrown. *)

From Stdlib Require Import String Ascii List Bool Arith Lia.
Import ListNotations.
Local Open Scope list_scope.
Local Open Scope string_scope.

(* ===================================================================== *)
(** ** JavaScript string and array primitives used by the sources *)
(* ===================================================================== *)

Module JS.

(** [s.startsWith(p)] *)
Fixpoint startsWith (s p : string) {struct p} : bool :=
  match p with
  | EmptyString => true
  | String c p' =>
      match s with
      | EmptyString => false
      | String d s' => Ascii.eqb d c && startsWith s' p'
      end
  end.

(** [s.substr(start)] for a non-negative [start]: the characters from
    index [start] to the end of the string. *)
Fixpoint substr (s : string) (start : nat) {struct start} : string :=
  match start with
  | O => s
  | S n => match s with
           | EmptyString => EmptyString
           | String _ s' => substr s' n
           end
  end.

(** [s.split(sep)] for a one-character separator: every occurrence of the
    separator ends a piece; the result always has at least one piece. *)
Fixpoint split (s : string) (sep : ascii) : list string :=
  match s with
  | EmptyString => [EmptyString]
  | String c s' =>
      if Ascii.eqb c sep then EmptyString :: split s' sep
      else match split s' sep with
           | [] => [String c EmptyString]
           | piece :: pieces => String c piece :: pieces
           end
  end.

(** [a.join(sep)] on an array of strings. *)
Fixpoint join (a : list string) (sep : string) : string :=
  match a with
  | [] => EmptyString
  | x :: rest =>
      match rest with
      | [] => x
      | _ :: _ => x ++ sep ++ join rest sep
      end
  end.

(** [s.includes(t)] *)
Fixpoint includes (s t : string) : bool :=
  startsWith s t ||
  match s with
  | EmptyString => false
  | String _ s' => includes s' t
  end.

(** Truthiness of an optional string: [undefined] and [''] are falsy. *)
Definition truthy_string (v : option string) : bool :=
  match v with
  | None => false
  | Some s => negb (String.eqb s EmptyString)
  end.

(** [v || dflt] on an optional string. *)
Definition or_string (v : option string) (dflt : string) : string :=
  match v with
  | Some s => if truthy_string v then s else dflt
  | None => dflt
  end.

(** Array destructuring [const [x0, x1, ...] = a]: element [i], or
    [undefined] when the array is shorter. *)
Definition elem {A : Type} (a : list A) (i : nat) : option A := nth_error a i.

End JS.

(* ===================================================================== *)
(** ** State-and-exception monad *)
(* ===================================================================== *)

(** How a statement sequence completes: normally with a value, or abruptly
    with a thrown [Error(msg)]. *)
Inductive Completion (A : Type) : Type :=
| Normal (a : A)
| Throw (msg : string).
Arguments Normal {A} a.
Arguments Throw {A} msg.

Definition M (St A : Type) : Type := St -> Completion A * St.

Definition ret {St A} (a : A) : M St A := fun st => (Normal a, st).

Definition throw {St A} (msg : string) : M St A := fun st => (Throw msg, st).

Definition mbind {St A B} (m : M St A) (k : A -> M St B) : M St B :=
  fun st =>
    match m st with
    | (Normal a, st') => k a st'
    | (Throw msg, st') => (Throw msg, st')
    end.

Definition get {St} : M St St := fun st => (Normal st, st).

Definition modify {St} (f : St -> St) : M St unit := fun st => (Normal tt, f st).

Declare Scope js_scope.
Delimit Scope js_scope with js.
Notation "x <- m ;; k" := (mbind m (fun x => k))
  (at level 61, m at next level, right associativity) : js_scope.
Notation "m ;; k" := (mbind m (fun _ => k))
  (at level 61, right associativity) : js_scope.
Local Open Scope js_scope.

(** A store of heap-allocated objects; an object reference is the index of
    the object in the store. *)
Definition Ref : Type := nat.

Definition alloc {A} (store : list A) (a : A) : list A * Ref :=
  ((store ++ [a])%list, List.length store).

Fixpoint update {A} (store : list A) (r : Ref) (f : A -> A) : list A :=
  match store, r with
  | [], _ => []
  | a :: rest, O => f a :: rest
  | a :: rest, S r' => a :: update rest r' f
  end.

(* ===================================================================== *)
(** ** Library objects the two classes build on

    These classes live in other packages ([@aws-cdk/aws-iam],
    [@aws-cdk/aws-codebuild], [@aws-cdk/aws-codepipeline-api]); they are
    modelled by the data the sources hand to them and the mutations the
    sources perform on them. *)
(* ===================================================================== *)

(** [codepipeline_api.Artifact]: a handle to the output of an action. *)
Inductive Artifact : Type :=
| NamedArtifact (name : string)
| OutputOf (construct_id : string).

Module iam.

Record PolicyStatement : Type := {
  resources : list string;
  actions : list string
}.

(** [new iam.PolicyStatement()] *)
Definition new : PolicyStatement := {| resources := []; actions := [] |}.

Definition addResource (arn : string) (s : PolicyStatement) : PolicyStatement :=
  {| resources := resources s ++ [arn]; actions := actions s |}.

(** [.addAllResources()] *)
Definition addAllResources (s : PolicyStatement) : PolicyStatement :=
  addResource "*" s.

(** [.addAction(a)] *)
Definition addAction (a : string) (s : PolicyStatement) : PolicyStatement :=
  {| resources := resources s; actions := actions s ++ [a] |}.

End iam.

Module codebuild.

(** [codebuild.BuildEnvironment] *)
Record BuildEnvironment : Type := {
  buildImage : option string;
  computeType : option string;
  privileged : option bool
}.

Definition UBUNTU_14_04_NODEJS_10_1_0 : string :=
  "aws/codebuild/nodejs:10.1.0".

Record BuildSpec : Type := {
  version : string;
  install_commands : list string;
  build_commands : list string
}.

(** A [codebuild.PipelineProject]: the scope and id it was created under,
    its properties, and the statements added to its execution role. *)
Record Project : Type := {
  scope : string;
  id : string;
  environment : BuildEnvironment;
  buildSpec : BuildSpec;
  rolePolicy : list iam.PolicyStatement
}.

(** [project.addToRolePolicy(statement)] *)
Definition addToRolePolicy (statement : iam.PolicyStatement) (p : Project) : Project :=
  {| scope := scope p; id := id p; environment := environment p;
     buildSpec := buildSpec p;
     rolePolicy := rolePolicy p ++ [statement] |}.

(** The [configuration] of a pipeline build action names its project. *)
Record Configuration : Type := { ProjectName : Ref }.

(** A [codebuild.PipelineBuildAction] and the stage and scope it has been
    bound to, if any. *)
Record PipelineBuildAction : Type := {
  actionName : string;
  inputArtifact : Artifact;
  project : Ref;
  boundTo : option (string * string)
}.

Definition configuration (a : PipelineBuildAction) : Configuration :=
  {| ProjectName := project a |}.

(** [action.bind(stage, scope)] *)
Definition bindAction (stage scope : string) (a : PipelineBuildAction)
  : PipelineBuildAction :=
  {| actionName := actionName a; inputArtifact := inputArtifact a;
     project := project a; boundTo := Some (stage, scope) |}.

End codebuild.

(* ===================================================================== *)
(** ** [DeployAction]
    (second part of
    [packages/@aws-cdk/aws-stepfunctions-tasks/rosetta/with-batch-job.ts-fixture]) *)
(* ===================================================================== *)

Definition not_bound : string := "Action not bound to pipeline".

Module DeployActionProps.

(** [interface DeployActionProps] *)
Record t : Type := {
  stacks : option (list string);
  exclusively : option bool;
  admin : bool;
  version : option string;
  assembly : Artifact
}.

End DeployActionProps.

Module DeployAction.

(** The fields of a [DeployAction] object. [actionName] and
    [inputArtifacts] belong to the base class [codepipeline_api.Action]:
    the first is set by [super({...})], the second grows with
    [addInputArtifact]. *)
Record t : Type := {
  actionName : string;
  inputArtifacts : list Artifact;
  stacks : string;
  _buildAction : option Ref;
  _project : option Ref;
  admin : bool;
  toolchainVersion : string;
  assembly : Artifact;
  exclusively : bool
}.

(** [constructor(props: DeployActionProps)] *)
Definition constructor (props : DeployActionProps.t) : t :=
  let stacks :=
    match DeployActionProps.stacks props with
    | Some a => JS.join a " "
    | None => ""
    end in
  {| actionName :=
       JS.join (match DeployActionProps.stacks props with
                | Some a => a
                | None => ["all"]
                end) "-";
     inputArtifacts := [];
     stacks := stacks;
     _buildAction := None;
     _project := None;
     admin := DeployActionProps.admin props;
     toolchainVersion := JS.or_string (DeployActionProps.version props) "latest";
     assembly := DeployActionProps.assembly props;
     exclusively :=
       match DeployActionProps.exclusively props with
       | None => false
       | Some _ => true
       end |}.

(** What the methods of one [DeployAction] object act on: the object itself
    and the stores holding the projects and build actions it refers to. *)
Record World : Type := {
  this : t;
  projects : list codebuild.Project;
  buildActions : list codebuild.PipelineBuildAction
}.

Definition set_this (f : t -> t) (w : World) : World :=
  {| this := f (this w); projects := projects w; buildActions := buildActions w |}.

(** [private get buildAction()] *)
Definition buildAction : M World Ref :=
  w <- get ;;
  match _buildAction (this w) with
  | None => throw not_bound
  | Some a => ret a
  end.

(** [public get project()] *)
Definition project : M World Ref :=
  w <- get ;;
  match _project (this w) with
  | None => throw not_bound
  | Some p => ret p
  end.

(** The property installed by [Object.defineProperty(this, 'configuration',
    { get: () => this.buildAction.configuration })]. *)
Definition configuration : M World (option codebuild.Configuration) :=
  a <- buildAction ;;
  w <- get ;;
  ret (option_map codebuild.configuration (nth_error (buildActions w) a)).

(** [public addToRolePolicy(statement)] *)
Definition addToRolePolicy (statement : iam.PolicyStatement) : M World unit :=
  p <- project ;;
  modify (fun w =>
    {| this := this w;
       projects := update (projects w) p (codebuild.addToRolePolicy statement);
       buildActions := buildActions w |}).

(** [new codebuild.PipelineProject(scope, id, props)] *)
Definition new_PipelineProject (scope id : string)
    (environment : codebuild.BuildEnvironment) (buildSpec : codebuild.BuildSpec)
  : M World Ref :=
  fun w =>
    let '(store, r) :=
      alloc (projects w)
        {| codebuild.scope := scope; codebuild.id := id;
           codebuild.environment := environment;
           codebuild.buildSpec := buildSpec;
           codebuild.rolePolicy := [] |} in
    (Normal r, {| this := this w; projects := store; buildActions := buildActions w |}).

(** [new codebuild.PipelineBuildAction({ actionName, inputArtifact, project })] *)
Definition new_PipelineBuildAction (actionName : string) (inputArtifact : Artifact)
    (project : Ref) : M World Ref :=
  fun w =>
    let '(store, r) :=
      alloc (buildActions w)
        {| codebuild.actionName := actionName;
           codebuild.inputArtifact := inputArtifact;
           codebuild.project := project;
           codebuild.boundTo := None |} in
    (Normal r, {| this := this w; projects := projects w; buildActions := store |}).

(** [this.addInputArtifact(artifact)] of the base class. *)
Definition addInputArtifact (artifact : Artifact) : M World unit :=
  modify (set_this (fun d =>
    {| actionName := actionName d;
       inputArtifacts := inputArtifacts d ++ [artifact];
       stacks := stacks d; _buildAction := _buildAction d;
       _project := _project d; admin := admin d;
       toolchainVersion := toolchainVersion d; assembly := assembly d;
       exclusively := exclusively d |})).

Definition set__project (p : Ref) : M World unit :=
  modify (set_this (fun d =>
    {| actionName := actionName d; inputArtifacts := inputArtifacts d;
       stacks := stacks d; _buildAction := _buildAction d;
       _project := Some p; admin := admin d;
       toolchainVersion := toolchainVersion d; assembly := assembly d;
       exclusively := exclusively d |})).

Definition set__buildAction (a : Ref) : M World unit :=
  modify (set_this (fun d =>
    {| actionName := actionName d; inputArtifacts := inputArtifacts d;
       stacks := stacks d; _buildAction := Some a;
       _project := _project d; admin := admin d;
       toolchainVersion := toolchainVersion d; assembly := assembly d;
       exclusively := exclusively d |})).

(** The command of the build phase, as templated in [bind]. *)
Definition deployCommand (d : t) : string :=
  let exclusively := if exclusively d then "--exclusively" else "" in
  "npx --package aws-cdk@" ++ toolchainVersion d ++ " -- cdk deploy "
    ++ exclusively ++ " --require-approval=never " ++ stacks d.

(** [public bind(stage, scope)] *)
Definition bind (stage scope : string) : M World unit :=
  w <- get ;;
  project <- new_PipelineProject scope "DeployStackProject"
    {| codebuild.buildImage := Some codebuild.UBUNTU_14_04_NODEJS_10_1_0;
       codebuild.computeType := None;
       codebuild.privileged := None |}
    {| codebuild.version := "0.2";
       codebuild.install_commands := ["npx npm@latest ci"];
       codebuild.build_commands := [deployCommand (this w)] |} ;;
  addInputArtifact (assembly (this w)) ;;
  set__project project ;;
  a <- new_PipelineBuildAction (actionName (this w)) (assembly (this w)) project ;;
  set__buildAction a ;;
  modify (fun w =>
    {| this := this w; projects := projects w;
       buildActions := update (buildActions w) a (codebuild.bindAction stage scope) |}) ;;
  w <- get ;;
  if admin (this w)
  then addToRolePolicy (iam.addAction "*" (iam.addAllResources iam.new))
  else ret tt.

(** A freshly constructed action next to existing stores. *)
Definition fresh (props : DeployActionProps.t)
    (ps : list codebuild.Project) (bs : list codebuild.PipelineBuildAction) : World :=
  {| this := constructor props; projects := ps; buildActions := bs |}.

(** The project a bound action refers to. *)
Definition boundProject (w : World) : option codebuild.Project :=
  match _project (this w) with
  | Some p => nth_error (projects w) p
  | None => None
  end.

End DeployAction.

(* ===================================================================== *)
(** ** [Pipeline]  ([packages/@aws-cdk/app-delivery/lib/pipeline.ts]) *)
(* ===================================================================== *)

Module PipelineProps.

(** [interface PipelineProps] *)
Record t : Type := {
  oauthSecret : string;
  source : string;
  branch : option string;
  workdir : option string;
  stacks : option (list string);
  environment : option codebuild.BuildEnvironment;
  install : option string;
  build : option string;
  exclusively : option bool;
  admin : option bool;
  version : option string
}.

End PipelineProps.

(** [new Secret(oauth.stringValue)]: the value of the secret string
    construct with the given id. *)
Inductive Secret : Type :=
| stringValue (secret_construct_id : string).

(** [codepipeline.GitHubSourceAction]. The destructured [owner] and [repo]
    are [undefined] when the split yields too few pieces. *)
Record GitHubSourceAction : Type := {
  gh_actionName : string;
  owner : option string;
  repo : option string;
  oauthToken : Secret;
  outputArtifactName : string;
  gh_branch : option string
}.

(** [sourceAction.outputArtifact] *)
Definition gh_outputArtifact (a : GitHubSourceAction) : Artifact :=
  NamedArtifact (outputArtifactName a).

(** The properties handed to [new BuildAction(this, id, {...})]
    ([../lib/build]); [.action.outputArtifact] is the output of that
    construct's action. *)
Record BuildActionProps : Type := {
  sourceArtifact : Artifact;
  ba_workdir : option string;
  ba_build : option string;
  ba_environment : option codebuild.BuildEnvironment;
  ba_install : option string;
  ba_version : option string
}.

Record BuildAction : Type := {
  ba_id : string;
  ba_props : BuildActionProps
}.

Definition ba_outputArtifact (a : BuildAction) : Artifact := OutputOf (ba_id a).

(** [s3.PipelineDeployAction] *)
Record PipelineDeployAction : Type := {
  pd_inputArtifact : Artifact;
  pd_actionName : string;
  bucket : string;
  objectKey : string;
  extract : bool
}.

(** The actions the pipeline places in its stages. *)
Inductive Action : Type :=
| SourceAction (a : GitHubSourceAction)
| BuildStageAction (a : BuildAction)
| DeployStageAction (a : DeployAction.t)
| PublishAction (a : PipelineDeployAction).

(** [{ name, actions }] *)
Record Stage : Type := {
  name : string;
  actions : list Action
}.

(** The value of a [CfnOutput]: a literal string or the name of a bucket
    construct, known only at deployment. *)
Inductive Value : Type :=
| Literal (s : string)
| bucketName (bucket_construct_id : string).

(** The constructs instantiated with [this] as their scope. *)
Inductive Resource : Type :=
| SecretString (id : string) (secretId : string)
| BuildActionConstruct (a : BuildAction)
| Bucket (id : string) (versioned : bool)
| CodePipeline (id : string) (restartExecutionOnUpdate : bool) (stages : list Stage)
| CfnOutput (id : string) (value : Value) (export : string).

Module Pipeline.

(** [new C(this, ...)]: the construct becomes the last child of [this]. *)
Definition new (r : Resource) : M (list Resource) unit :=
  modify (fun children => (children ++ [r])%list).

Definition dquote : string := String "034"%char EmptyString.

(** [constructor(scope, id, props)], run after [super(scope, id)] on the
    children of the new construct. *)
Definition constructor (id : string) (props : PipelineProps.t) : M (list Resource) unit :=
  let sourcePrefix := "https://github.com/" in
  if negb (JS.startsWith (PipelineProps.source props) sourcePrefix)
  then throw (dquote ++ "source" ++ dquote ++ " must start with " ++ sourcePrefix)
  else
    let source := JS.substr (PipelineProps.source props) (String.length sourcePrefix) in
    let pieces := JS.split source "/"%char in
    let owner := JS.elem pieces 0 in
    let repo := JS.elem pieces 1 in
    new (SecretString "OauthTokenSecret" (PipelineProps.oauthSecret props)) ;;
    let oauth := "OauthTokenSecret" in
    let version := JS.or_string (PipelineProps.version props) "latest" in
    let branch := PipelineProps.branch props in
    let sourceAction :=
      {| gh_actionName := "Pull";
         owner := owner;
         repo := repo;
         oauthToken := stringValue oauth;
         outputArtifactName := "Source";
         gh_branch := branch |} in
    let buildAction :=
      {| ba_id := "BuildDeploy";
         ba_props :=
           {| sourceArtifact := gh_outputArtifact sourceAction;
              ba_workdir := PipelineProps.workdir props;
              ba_build := PipelineProps.build props;
              ba_environment := PipelineProps.environment props;
              ba_install := PipelineProps.install props;
              ba_version := PipelineProps.version props |} |} in
    new (BuildActionConstruct buildAction) ;;
    new (Bucket "Publish" true) ;;
    let publishBucket := "Publish" in
    let objectKey := "cloud-assembly.zip" in
    let publishAction :=
      {| pd_inputArtifact := ba_outputArtifact buildAction;
         pd_actionName := "Publish";
         bucket := publishBucket;
         objectKey := objectKey;
         extract := false |} in
    let deployAction :=
      DeployAction.constructor
        {| DeployActionProps.admin := true;
           DeployActionProps.assembly := ba_outputArtifact buildAction;
           DeployActionProps.stacks := PipelineProps.stacks props;
           DeployActionProps.version := PipelineProps.version props;
           DeployActionProps.exclusively := PipelineProps.exclusively props |} in
    new (CodePipeline "Bootstrap" true
           [ {| name := "Source";  actions := [ SourceAction sourceAction ] |};
             {| name := "Build";   actions := [ BuildStageAction buildAction ] |};
             {| name := "Deploy";  actions := [ DeployStageAction deployAction ] |};
             {| name := "Publish"; actions := [ PublishAction publishAction ] |} ]) ;;
    let exportPrefix := "cdk-pipeline:" ++ id in
    new (CfnOutput "PublishBucketName" (bucketName publishBucket)
           (exportPrefix ++ "-bucket")) ;;
    new (CfnOutput "PublishObjectKey" (Literal objectKey)
           (exportPrefix ++ "-object-key")) ;;
    new (CfnOutput "ToolchainVersion" (Literal version)
           (exportPrefix ++ "-toolchain-version")).

(** The stage lists of the pipelines among the children. *)
Fixpoint pipelines (children : list Resource) : list (list Stage) :=
  match children with
  | [] => []
  | CodePipeline _ _ stages :: rest => stages :: pipelines rest
  | _ :: rest => pipelines rest
  end.

(** The exported values among the children, as (value, export name). *)
Fixpoint exports (children : list Resource) : list (Value * string) :=
  match children with
  | [] => []
  | CfnOutput _ v e :: rest => (v, e) :: exports rest
  | _ :: rest => exports rest
  end.

(** The source actions found in the stages of a pipeline. *)
Definition sourceActions (stages : list Stage) : list GitHubSourceAction :=
  flat_map (fun s =>
    flat_map (fun a => match a with SourceAction g => [g] | _ => [] end)
             (actions s)) stages.

(** The deploy actions found in the stage called [stage]. *)
Definition deployActions (stage : string) (stages : list Stage) : list DeployAction.t :=
  flat_map (fun s =>
    if String.eqb (name s) stage
    then flat_map (fun a => match a with DeployStageAction d => [d] | _ => [] end)
                  (actions s)
    else []) stages.

End Pipeline.

(* ===================================================================== *)
(** ** Vocabulary of the properties *)
(* ===================================================================== *)

(** The text before the first [sep] (the whole string when there is none). *)
Fixpoint before_first (s : string) (sep : ascii) : string :=
  match s with
  | EmptyString => EmptyString
  | String c s' =>
      if Ascii.eqb c sep then EmptyString else String c (before_first s' sep)
  end.

(** The text after the first [sep], if [sep] occurs. *)
Fixpoint after_first (s : string) (sep : ascii) : option string :=
  match s with
  | EmptyString => None
  | String c s' => if Ascii.eqb c sep then Some s' else after_first s' sep
  end.

(** [n] successive evaluations of a getter, with the values read. *)
Fixpoint reads {St A} (n : nat) (m : M St A) : M St (list A) :=
  match n with
  | O => ret []
  | S k => a <- m ;; rest <- reads k m ;; ret (a :: rest)
  end.

(** The statement allowing every action on every resource. *)
Definition allow_everything : iam.PolicyStatement :=
  {| iam.resources := ["*"]; iam.actions := ["*"] |}.

Definition github_prefix : string := "https://github.com/".

(** What is left of a source URL after the prefix. *)
Definition remainder (props : PipelineProps.t) : string :=
  JS.substr (PipelineProps.source props) (String.length github_prefix).

(** The children a pipeline construct ends up with. *)
Definition children_of (id : string) (props : PipelineProps.t) : list Resource :=
  snd (Pipeline.constructor id props []).

(** The source actions of the pipeline assembled for [props]. *)
Definition resolved (id : string) (props : PipelineProps.t) : list GitHubSourceAction :=
  flat_map Pipeline.sourceActions (Pipeline.pipelines (children_of id props)).

(** [props] with another value for the [admin] option. *)
Definition with_admin (a : option bool) (props : PipelineProps.t) : PipelineProps.t :=
  {| PipelineProps.oauthSecret := PipelineProps.oauthSecret props;
     PipelineProps.source := PipelineProps.source props;
     PipelineProps.branch := PipelineProps.branch props;
     PipelineProps.workdir := PipelineProps.workdir props;
     PipelineProps.stacks := PipelineProps.stacks props;
     PipelineProps.environment := PipelineProps.environment props;
     PipelineProps.install := PipelineProps.install props;
     PipelineProps.build := PipelineProps.build props;
     PipelineProps.exclusively := PipelineProps.exclusively props;
     PipelineProps.admin := a;
     PipelineProps.version := PipelineProps.version props |}.

(** The world a fresh action is in after one [bind], as the code leaves it. *)
Definition bound (props : DeployActionProps.t)
    (ps : list codebuild.Project) (bs : list codebuild.PipelineBuildAction)
    (stage scope : string) : DeployAction.World :=
  snd (DeployAction.bind stage scope (DeployAction.fresh props ps bs)).

(** The project created by [bind] for a fresh action. *)
Definition deployProject (props : DeployActionProps.t) (scope : string)
  : codebuild.Project :=
  {| codebuild.scope := scope;
     codebuild.id := "DeployStackProject";
     codebuild.environment :=
       {| codebuild.buildImage := Some codebuild.UBUNTU_14_04_NODEJS_10_1_0;
          codebuild.computeType := None;
          codebuild.privileged := None |};
     codebuild.buildSpec :=
       {| codebuild.version := "0.2";
          codebuild.install_commands := ["npx npm@latest ci"];
          codebuild.build_commands :=
            [DeployAction.deployCommand (DeployAction.constructor props)] |};
     codebuild.rolePolicy :=
       if DeployActionProps.admin props then [allow_everything] else [] |}.

(** The command-line option emitted for the exclusively flag. *)
Definition exclusively_token : string := "--exclusively".

(** [addToRolePolicy] called with each statement in turn. *)
Fixpoint addStatements (statements : list iam.PolicyStatement)
  : M DeployAction.World unit :=
  match statements with
  | [] => ret tt
  | statement :: rest =>
      DeployAction.addToRolePolicy statement ;; addStatements rest
  end.

(** The id a child construct was created under. *)
Definition resource_id (r : Resource) : string :=
  match r with
  | SecretString id _ => id
  | BuildActionConstruct a => ba_id a
  | Bucket id _ => id
  | CodePipeline id _ _ => id
  | CfnOutput id _ _ => id
  end.

(** The world of the action object [d] next to the given stores. *)
Definition world_of (d : DeployAction.t)
    (ps : list codebuild.Project) (bs : list codebuild.PipelineBuildAction)
  : DeployAction.World :=
  {| DeployAction.this := d;
     DeployAction.projects := ps;
     DeployAction.buildActions := bs |}.

(** A project with further statements on its execution role. *)
Definition with_statements (p : codebuild.Project)
    (statements : list iam.PolicyStatement) : codebuild.Project :=
  {| codebuild.scope := codebuild.scope p;
     codebuild.id := codebuild.id p;
     codebuild.environment := codebuild.environment p;
     codebuild.buildSpec := codebuild.buildSpec p;
     codebuild.rolePolicy := (codebuild.rolePolicy p ++ statements)%list |}.

(** The base class [codepipeline_api.Action] is not among the sources. Its
    constructor, reached through [super({...})], validates the action name
    it is handed: the name must match [/^[a-zA-Z0-9.@_-]{1,100}$/], and an
    [Error] is thrown otherwise. *)
Definition valid_name_char (c : ascii) : bool :=
  let n := nat_of_ascii c in
  (Nat.leb 97 n && Nat.leb n 122) || (Nat.leb 65 n && Nat.leb n 90) ||
  (Nat.leb 48 n && Nat.leb n 57) ||
  Ascii.eqb c "."%char || Ascii.eqb c "@"%char ||
  Ascii.eqb c "_"%char || Ascii.eqb c "-"%char.

Fixpoint valid_name_chars (name : string) : bool :=
  match name with
  | EmptyString => true
  | String c rest => valid_name_char c && valid_name_chars rest
  end.

Definition valid_action_name (name : string) : bool :=
  valid_name_chars name &&
  Nat.leb 1 (String.length name) && Nat.leb (String.length name) 100.

(** [new DeployAction(props)]: the constructor of the class with the check
    of the base class in front of it. *)
Definition new_DeployAction (props : DeployActionProps.t) : Completion DeployAction.t :=
  let d := DeployAction.constructor props in
  if valid_action_name (DeployAction.actionName d)
  then Normal d
  else Throw ("Action name must match regular expression: "
                ++ "/^[a-zA-Z0-9.@_-]{1,100}$/, got '"
                ++ DeployAction.actionName d ++ "'").


(** The properties the pipeline hands to its deploy action. *)
Definition pipeline_deploy_props (props : PipelineProps.t) : DeployActionProps.t :=
  {| DeployActionProps.stacks := PipelineProps.stacks props;
     DeployActionProps.exclusively := PipelineProps.exclusively props;
     DeployActionProps.admin := true;
     DeployActionProps.version := PipelineProps.version props;
     DeployActionProps.assembly := OutputOf "BuildDeploy" |}.

(** What the library classes require of the pipeline's inputs: the base
    class [Construct] rejects an empty id, and the deploy action must pass
    the name check of its base class. *)
Definition library_accepts (id : string) (props : PipelineProps.t) : bool :=
  negb (String.eqb id EmptyString) &&
  valid_action_name
    (DeployAction.actionName (DeployAction.constructor (pipeline_deploy_props props))).

(** [props] with another value for the [version] option. *)
Definition with_version (v : option string) (props : PipelineProps.t) : PipelineProps.t :=
  {| PipelineProps.oauthSecret := PipelineProps.oauthSecret props;
     PipelineProps.source := PipelineProps.source props;
     PipelineProps.branch := PipelineProps.branch props;
     PipelineProps.workdir := PipelineProps.workdir props;
     PipelineProps.stacks := PipelineProps.stacks props;
     PipelineProps.environment := PipelineProps.environment props;
     PipelineProps.install := PipelineProps.install props;
     PipelineProps.build := PipelineProps.build props;
     PipelineProps.exclusively := PipelineProps.exclusively props;
     PipelineProps.admin := PipelineProps.admin props;
     PipelineProps.version := v |}.

(** Sample inputs. *)
Definition sample_pipeline_props (source : string) : PipelineProps.t :=
  {| PipelineProps.oauthSecret := "github-token";
     PipelineProps.source := source;
     PipelineProps.branch := None;
     PipelineProps.workdir := None;
     PipelineProps.stacks := Some ["Network"; "Service"];
     PipelineProps.environment := None;
     PipelineProps.install := None;
     PipelineProps.build := None;
     PipelineProps.exclusively := None;
     PipelineProps.admin := Some false;
     PipelineProps.version := None |}.

Definition sample_deploy_props (stacks : option (list string))
    (exclusively : option bool) (admin : bool) : DeployActionProps.t :=
  {| DeployActionProps.stacks := stacks;
     DeployActionProps.exclusively := exclusively;
     DeployActionProps.admin := admin;
     DeployActionProps.version := None;
     DeployActionProps.assembly := OutputOf "BuildDeploy" |}.

(* ===================================================================== *)
(** ** Facts about the string primitives *)
(* ===================================================================== *)

Section StringFacts.

Variable sep : ascii.

Lemma startsWith_app (p r : string) : JS.startsWith (p ++ r) p = true.
Proof.
  induction p as [|c p IH]; simpl; [reflexivity|].
  now rewrite Ascii.eqb_refl, IH.
Qed.

Lemma startsWith_inv (s p : string) :
  JS.startsWith s p = true -> s = p ++ JS.substr s (String.length p).
Proof.
  revert s; induction p as [|c p IH]; intros s H; simpl in *; [reflexivity|].
  destruct s as [|d s]; [discriminate|].
  apply andb_true_iff in H as [Hc Hs].
  apply Ascii.eqb_eq in Hc; subst d.
  f_equal; now apply IH.
Qed.

Lemma substr_app (p r : string) : JS.substr (p ++ r) (String.length p) = r.
Proof. induction p; simpl; auto. Qed.

(** [split] cuts at the first separator and goes on with what follows. *)
Lemma split_unfold (s : string) :
  JS.split s sep =
  before_first s sep ::
    match after_first s sep with
    | Some r => JS.split r sep
    | None => []
    end.
Proof.
  induction s as [|c s IH]; simpl; [reflexivity|].
  destruct (Ascii.eqb c sep); [reflexivity|].
  now rewrite IH.
Qed.

Lemma split_first (s : string) :
  JS.elem (JS.split s sep) 0 = Some (before_first s sep).
Proof. now rewrite split_unfold. Qed.

Lemma split_second (s : string) :
  JS.elem (JS.split s sep) 1 =
  option_map (fun r => before_first r sep) (after_first s sep).
Proof.
  rewrite split_unfold; simpl.
  destruct (after_first s sep) as [r|]; [|reflexivity].
  now rewrite split_unfold.
Qed.

(** [before_first] and [after_first] cut the string around its first
    separator. *)
Lemma first_cut (s r : string) :
  after_first s sep = Some r ->
  s = before_first s sep ++ String sep r /\
  after_first (before_first s sep) sep = None.
Proof.
  revert r; induction s as [|c s IH]; intros r H; simpl in *; [discriminate|].
  destruct (Ascii.eqb c sep) eqn:E.
  - apply Ascii.eqb_eq in E; subst c. inversion H; subst. now split.
  - destruct (IH r H) as [Hs Hn]. simpl. rewrite E. split; [now f_equal|exact Hn].
Qed.

Lemma no_cut (s : string) :
  after_first s sep = None -> before_first s sep = s.
Proof.
  induction s as [|c s IH]; simpl; [reflexivity|].
  destruct (Ascii.eqb c sep); [discriminate|].
  intros H; now rewrite IH.
Qed.

Lemma split_no_sep (x : string) :
  after_first x sep = None -> JS.split x sep = [x].
Proof. intros H. now rewrite split_unfold, H, no_cut. Qed.

Lemma split_app_sep (x r : string) :
  after_first x sep = None ->
  JS.split (x ++ String sep r) sep = x :: JS.split r sep.
Proof.
  induction x as [|c x IH]; simpl; intros H.
  - now rewrite Ascii.eqb_refl.
  - destruct (Ascii.eqb c sep); [discriminate|].
    now rewrite IH.
Qed.

(** Splitting what [join] produced gives the pieces back, as long as there
    is a piece and no piece holds the separator. *)
Lemma split_join (a : list string) :
  a <> [] ->
  Forall (fun x => after_first x sep = None) a ->
  JS.split (JS.join a (String sep EmptyString)) sep = a.
Proof.
  induction a as [|x rest IH]; intros Hne Hall; [congruence|].
  inversion Hall as [|? ? Hx Hrest]; subst.
  destruct rest as [|y rest'].
  - simpl. now apply split_no_sep.
  - change (JS.join (x :: y :: rest') (String sep EmptyString))
      with (x ++ String sep (JS.join (y :: rest') (String sep EmptyString))).
    rewrite split_app_sep by assumption.
    f_equal. apply IH; [discriminate|assumption].
Qed.

End StringFacts.

(** [join] is the standard library's [String.concat]. *)
Lemma join_concat (a : list string) (sep : string) :
  JS.join a sep = String.concat sep a.
Proof.
  induction a as [|x rest IH]; [reflexivity|].
  destruct rest as [|y rest']; [reflexivity|].
  simpl in *. now rewrite IH.
Qed.

Lemma append_assoc (a b c : string) : (a ++ b) ++ c = a ++ (b ++ c).
Proof. induction a as [|x a IH]; simpl; [reflexivity|now rewrite IH]. Qed.

Lemma includes_startsWith (s t : string) :
  JS.startsWith s t = true -> JS.includes s t = true.
Proof. intros H; destruct s; simpl; now rewrite H. Qed.

Lemma includes_app (a t b : string) : JS.includes (a ++ t ++ b) t = true.
Proof.
  induction a as [|c a IH]; simpl.
  - apply includes_startsWith, startsWith_app.
  - rewrite IH. apply orb_true_r.
Qed.

(* ===================================================================== *)
(** ** Facts about the monad and the stores *)
(* ===================================================================== *)

Lemma reads_stable {St A} (m : M St A) (st : St) (a : A) (n : nat) :
  m st = (Normal a, st) -> reads n m st = (Normal (repeat a n), st).
Proof.
  intros H; induction n as [|n IH]; [reflexivity|].
  simpl. unfold mbind at 1. rewrite H.
  unfold mbind at 1. rewrite IH. reflexivity.
Qed.

Lemma update_alloc {A} (store : list A) (a : A) (f : A -> A) :
  update (store ++ [a])%list (List.length store) f = (store ++ [f a])%list.
Proof. induction store as [|b store IH]; simpl; [reflexivity|now rewrite IH]. Qed.

Lemma nth_error_alloc {A} (store : list A) (a : A) :
  nth_error (store ++ [a])%list (List.length store) = Some a.
Proof. induction store; simpl; auto. Qed.

(* ===================================================================== *)
(** ** The deploy action *)
(* ===================================================================== *)

(** [bind] on a fresh action completes normally; it allocates one project
    and one build action at the ends of their stores and points the action
    at them. *)
Lemma bind_fresh props ps bs stage scope :
  let d := DeployAction.constructor props in
  DeployAction.bind stage scope (DeployAction.fresh props ps bs) =
  (Normal tt,
   {| DeployAction.this :=
        {| DeployAction.actionName := DeployAction.actionName d;
           DeployAction.inputArtifacts := [DeployActionProps.assembly props];
           DeployAction.stacks := DeployAction.stacks d;
           DeployAction._buildAction := Some (List.length bs);
           DeployAction._project := Some (List.length ps);
           DeployAction.admin := DeployActionProps.admin props;
           DeployAction.toolchainVersion := DeployAction.toolchainVersion d;
           DeployAction.assembly := DeployActionProps.assembly props;
           DeployAction.exclusively := DeployAction.exclusively d |};
      DeployAction.projects := (ps ++ [deployProject props scope])%list;
      DeployAction.buildActions :=
        (bs ++ [ {| codebuild.actionName := DeployAction.actionName d;
                    codebuild.inputArtifact := DeployActionProps.assembly props;
                    codebuild.project := List.length ps;
                    codebuild.boundTo := Some (stage, scope) |} ])%list |}).
Proof.
  unfold DeployAction.bind, DeployAction.fresh, deployProject.
  cbn -[DeployAction.deployCommand JS.join JS.or_string update].
  rewrite update_alloc.
  destruct (DeployActionProps.admin props);
    cbn -[DeployAction.deployCommand JS.join JS.or_string update].
  - unfold modify; cbn -[DeployAction.deployCommand JS.join JS.or_string update].
    rewrite update_alloc. reflexivity.
  - reflexivity.
Qed.

Lemma bound_project props ps bs stage scope :
  DeployAction.boundProject (bound props ps bs stage scope) =
  Some (deployProject props scope).
Proof.
  unfold bound. rewrite bind_fresh.
  unfold DeployAction.boundProject; cbn [snd DeployAction.this
    DeployAction._project DeployAction.projects].
  apply nth_error_alloc.
Qed.

(** Once bound, [addToRolePolicy] completes normally: it appends the
    statement to the role of the bound project and leaves the action, and
    with it both references, as they were. *)
Lemma addToRolePolicy_bound props ps bs stage scope statement :
  DeployAction.addToRolePolicy statement (bound props ps bs stage scope) =
  (Normal tt,
   {| DeployAction.this := DeployAction.this (bound props ps bs stage scope);
      DeployAction.projects :=
        (ps ++ [codebuild.addToRolePolicy statement (deployProject props scope)])%list;
      DeployAction.buildActions :=
        DeployAction.buildActions (bound props ps bs stage scope) |}).
Proof.
  unfold bound. rewrite bind_fresh.
  unfold DeployAction.addToRolePolicy, DeployAction.project, mbind, get, modify, ret.
  cbn [snd DeployAction.this DeployAction._project DeployAction.projects
       DeployAction.buildActions].
  now rewrite update_alloc.
Qed.

(** The build command of a fresh action, piece by piece. *)
Lemma deployCommand_fresh props :
  DeployAction.deployCommand (DeployAction.constructor props) =
  "npx --package aws-cdk@"
    ++ JS.or_string (DeployActionProps.version props) "latest"
    ++ " -- cdk deploy "
    ++ match DeployActionProps.exclusively props with
       | Some _ => "--exclusively"
       | None => ""
       end
    ++ " --require-approval=never "
    ++ match DeployActionProps.stacks props with
       | Some names => String.concat " " names
       | None => ""
       end.
Proof.
  unfold DeployAction.deployCommand, DeployAction.constructor;
    cbn [DeployAction.exclusively DeployAction.toolchainVersion DeployAction.stacks].
  destruct (DeployActionProps.exclusively props), (DeployActionProps.stacks props);
    now rewrite ?join_concat.
Qed.

(** The stack names can be read back from the stack portion of the command:
    splitting it at the spaces yields the names as given, in order. *)
Lemma stacks_recovered_from_command props names :
  DeployActionProps.stacks props = Some names ->
  names <> [] ->
  Forall (fun x => after_first x " "%char = None) names ->
  JS.split (DeployAction.stacks (DeployAction.constructor props)) " "%char = names.
Proof.
  intros Hs Hne Hall.
  unfold DeployAction.constructor; cbn [DeployAction.stacks]. rewrite Hs.
  now apply split_join.
Qed.

(** The flag is emitted exactly when the [exclusively] property is present,
    whatever its value. *)
Lemma exclusively_field props :
  DeployAction.exclusively (DeployAction.constructor props) = true <->
  DeployActionProps.exclusively props <> None.
Proof.
  unfold DeployAction.constructor; cbn [DeployAction.exclusively].
  destruct (DeployActionProps.exclusively props); split; congruence.
Qed.

Lemma exclusively_present_in_command props b :
  DeployActionProps.exclusively props = Some b ->
  JS.includes (DeployAction.deployCommand (DeployAction.constructor props))
    "--exclusively" = true.
Proof.
  intros H. rewrite deployCommand_fresh, H.
  do 2 rewrite <- append_assoc.
  apply includes_app.
Qed.

(** C1 (fails on the code). The claim: the deploy command contains
    [--exclusively] only when the caller set the flag to true. On the code,
    a caller who passes [exclusively: false] still gets the token: after
    [bind], the build command of the project is
    [npx --package aws-cdk@latest -- cdk deploy --exclusively
     --require-approval=never ], which includes [--exclusively]. *)
Theorem C1_explicit_false_emits_flag :
  exists w1 proj,
    DeployAction.bind "Deploy" "Pipeline"
      (DeployAction.fresh (sample_deploy_props None (Some false) true) [] [])
      = (Normal tt, w1) /\
    DeployAction.boundProject w1 = Some proj /\
    codebuild.build_commands (codebuild.buildSpec proj) =
      ["npx --package aws-cdk@latest -- cdk deploy --exclusively --require-approval=never "] /\
    Forall (fun c => JS.includes c "--exclusively" = true)
      (codebuild.build_commands (codebuild.buildSpec proj)).
Proof.
  do 2 eexists. split; [reflexivity|]. split; [reflexivity|].
  split; [reflexivity|]. repeat constructor.
Qed.

(** C4. On a freshly constructed DeployAction, reading [project], reading
    [buildAction], reading [configuration] and calling [addToRolePolicy]
    each throw "Action not bound to pipeline" and change nothing. One
    [bind] completes normally, and from then on any number of reads of
    [project], [buildAction] and [configuration] return the same reference
    (the project and the build action allocated by that [bind]) and leave
    the state as it is. *)
Theorem C4_bound_before_use props ps bs stage scope statement :
  DeployAction.project (DeployAction.fresh props ps bs)
    = (Throw not_bound, DeployAction.fresh props ps bs) /\
  DeployAction.buildAction (DeployAction.fresh props ps bs)
    = (Throw not_bound, DeployAction.fresh props ps bs) /\
  DeployAction.configuration (DeployAction.fresh props ps bs)
    = (Throw not_bound, DeployAction.fresh props ps bs) /\
  DeployAction.addToRolePolicy statement (DeployAction.fresh props ps bs)
    = (Throw not_bound, DeployAction.fresh props ps bs) /\
  exists w1,
    DeployAction.bind stage scope (DeployAction.fresh props ps bs) = (Normal tt, w1) /\
    nth_error (DeployAction.projects w1) (List.length ps)
      = Some (deployProject props scope) /\
    (forall n, reads n DeployAction.project w1
               = (Normal (repeat (List.length ps) n), w1)) /\
    (forall n, reads n DeployAction.buildAction w1
               = (Normal (repeat (List.length bs) n), w1)) /\
    (forall n, reads n DeployAction.configuration w1
               = (Normal (repeat (Some {| codebuild.ProjectName := List.length ps |}) n),
                  w1)).
Proof.
  repeat (split; [reflexivity|]).
  eexists. split; [apply bind_fresh|].
  split; [apply nth_error_alloc|].
  repeat split; intros n; apply reads_stable.
  - reflexivity.
  - reflexivity.
  - unfold DeployAction.configuration, DeployAction.buildAction, mbind, get, ret.
    cbn [DeployAction.this DeployAction._buildAction DeployAction.buildActions].
    now rewrite nth_error_alloc.
Qed.

(** C8. After [bind], the build command of the project ends with the stack
    portion: the stack names as given, in input order, separated by single
    spaces, when a stack list was supplied, and nothing when none was. *)
Theorem C8_stacks_in_command props ps bs stage scope :
  exists w1 proj,
    DeployAction.bind stage scope (DeployAction.fresh props ps bs) = (Normal tt, w1) /\
    DeployAction.boundProject w1 = Some proj /\
    codebuild.build_commands (codebuild.buildSpec proj) =
      [ "npx --package aws-cdk@"
          ++ JS.or_string (DeployActionProps.version props) "latest"
          ++ " -- cdk deploy "
          ++ match DeployActionProps.exclusively props with
             | Some _ => "--exclusively"
             | None => ""
             end
          ++ " --require-approval=never "
          ++ match DeployActionProps.stacks props with
             | Some names => String.concat " " names
             | None => ""
             end ].
Proof.
  exists (bound props ps bs stage scope), (deployProject props scope).
  split; [unfold bound; now rewrite bind_fresh|].
  split; [apply bound_project|].
  cbn [deployProject codebuild.buildSpec codebuild.build_commands].
  now rewrite deployCommand_fresh.
Qed.

(** C9. [bind] on a fresh action adds one project to the store. When the
    admin flag is true the execution role of that project has received
    exactly one statement, the one built by
    [new PolicyStatement().addAllResources().addAction('*')], which allows
    action [*] on resource [*]; when the flag is false it has received none. *)
Theorem C9_admin_statement props ps bs stage scope :
  exists w1 proj,
    DeployAction.bind stage scope (DeployAction.fresh props ps bs) = (Normal tt, w1) /\
    DeployAction.projects w1 = (ps ++ [proj])%list /\
    DeployAction.boundProject w1 = Some proj /\
    codebuild.rolePolicy proj =
      (if DeployActionProps.admin props
       then [iam.addAction "*" (iam.addAllResources iam.new)]
       else []) /\
    iam.addAction "*" (iam.addAllResources iam.new) =
      {| iam.resources := ["*"]; iam.actions := ["*"] |}.
Proof.
  exists (bound props ps bs stage scope), (deployProject props scope).
  split; [unfold bound; now rewrite bind_fresh|].
  split; [unfold bound; now rewrite bind_fresh|].
  split; [apply bound_project|].
  split; [|reflexivity].
  cbn [deployProject codebuild.rolePolicy].
  now destruct (DeployActionProps.admin props).
Qed.




(* ===================================================================== *)
(** ** The pipeline *)
(* ===================================================================== *)

(** With an accepted source URL the constructor completes normally. *)
Lemma constructor_completes id props :
  JS.startsWith (PipelineProps.source props) github_prefix = true ->
  Pipeline.constructor id props [] = (Normal tt, children_of id props).
Proof.
  intros H. unfold children_of, Pipeline.constructor.
  fold github_prefix. rewrite H. reflexivity.
Qed.

(** The constructor never reads [props.admin]. *)
Lemma admin_option_unused id props a st :
  Pipeline.constructor id (with_admin a props) st = Pipeline.constructor id props st.
Proof. reflexivity. Qed.

(** Run the constructor symbolically past the accepted prefix check. *)
Ltac accepted H :=
  unfold children_of, Pipeline.constructor;
  fold github_prefix; rewrite H;
  cbn -[JS.split JS.substr JS.or_string String.length github_prefix
        DeployAction.constructor].

(** C2. When the source URL does not start with [https://github.com/], the
    constructor throws ["source" must start with https://github.com/] and
    the children of the construct are what they were before: no construct
    has been created. *)
Theorem C2_bad_source_rejected_first id props children :
  JS.startsWith (PipelineProps.source props) "https://github.com/" = false ->
  Pipeline.constructor id props children =
    (Throw (Pipeline.dquote ++ "source" ++ Pipeline.dquote
              ++ " must start with https://github.com/"),
     children).
Proof.
  intros H. unfold Pipeline.constructor. rewrite H. reflexivity.
Qed.

Lemma C2_witness :
  Pipeline.constructor "App" (sample_pipeline_props "git@github.com:acme/widgets.git") []
  = (Throw (Pipeline.dquote ++ "source" ++ Pipeline.dquote
              ++ " must start with https://github.com/"),
     []).
Proof.
  apply (C2_bad_source_rejected_first "App"
           (sample_pipeline_props "git@github.com:acme/widgets.git") []).
  reflexivity.
Defined.

(** C3 as stated does not hold: for
    [https://github.com/acme/widgets/tree/main] the repository resolves to
    [widgets], not to [widgets/tree/main], the entire part after the first
    [/]. *)
Lemma C3_counterexample :
  ~ (forall id props,
       JS.startsWith (PipelineProps.source props) github_prefix = true ->
       forall g, In g (resolved id props) ->
         owner g = Some (before_first (remainder props) "/") /\
         repo g = after_first (remainder props) "/").
Proof.
  intros H.
  specialize (H "App"
    (sample_pipeline_props "https://github.com/acme/widgets/tree/main")
    eq_refl _ (or_introl eq_refl)).
  destruct H as [_ H]. vm_compute in H. discriminate H.
Qed.

(** C3 (amended). For a source URL starting with [https://github.com/] the
    pipeline has one source action; the URL is the prefix followed by a
    remainder; the owner is the part of the remainder before its first [/]
    and the repository is the part between the first and the second [/]
    (up to the end when there is no second [/]; undefined when the
    remainder has no [/] at all). When the part after the first [/] holds
    no further [/], the repository is that entire part. *)
Theorem C3_owner_and_repo id props :
  JS.startsWith (PipelineProps.source props) github_prefix = true ->
  exists g,
    Pipeline.constructor id props [] = (Normal tt, children_of id props) /\
    resolved id props = [g] /\
    PipelineProps.source props = github_prefix ++ remainder props /\
    owner g = Some (before_first (remainder props) "/") /\
    repo g = option_map (fun r => before_first r "/")
                        (after_first (remainder props) "/") /\
    (forall r, after_first (remainder props) "/" = Some r ->
               after_first r "/" = None -> repo g = Some r).
Proof.
  intros H.
  eexists. split; [now apply constructor_completes|].
  unfold resolved. accepted H.
  split; [reflexivity|].
  split; [now apply startsWith_inv|].
  cbn [owner repo]. fold (remainder props).
  split; [apply split_first|].
  split; [apply split_second|].
  intros r Hr Hn. etransitivity; [apply split_second|].
  rewrite Hr. cbn [option_map]. now rewrite no_cut.
Qed.

Lemma C3_witness :
  exists g,
    resolved "App" (sample_pipeline_props "https://github.com/acme/widgets") = [g] /\
    owner g = Some "acme" /\ repo g = Some "widgets".
Proof.
  destruct (C3_owner_and_repo "App"
              (sample_pipeline_props "https://github.com/acme/widgets") eq_refl)
    as (g & _ & Hg & _ & Ho & _ & Hr).
  exists g. split; [exact Hg|]. split; [exact Ho|].
  apply (Hr "widgets"); reflexivity.
Defined.

(** C5. For an accepted source URL the constructor completes and creates one
    pipeline, whose stages are Source, Build, Deploy, Publish in that order,
    each with exactly one action. *)
Theorem C5_four_stages id props :
  JS.startsWith (PipelineProps.source props) github_prefix = true ->
  exists children stages,
    Pipeline.constructor id props [] = (Normal tt, children) /\
    Pipeline.pipelines children = [stages] /\
    map name stages = ["Source"; "Build"; "Deploy"; "Publish"] /\
    Forall (fun s => List.length (actions s) = 1) stages.
Proof.
  intros H. exists (children_of id props).
  eexists. split; [now apply constructor_completes|].
  accepted H.
  split; [reflexivity|]. split; [reflexivity|]. repeat constructor.
Qed.

Lemma C5_witness :
  exists children stages,
    Pipeline.constructor "App" (sample_pipeline_props "https://github.com/acme/widgets") []
      = (Normal tt, children) /\
    Pipeline.pipelines children = [stages] /\
    map name stages = ["Source"; "Build"; "Deploy"; "Publish"] /\
    Forall (fun s => List.length (actions s) = 1) stages.
Proof.
  apply (C5_four_stages "App" (sample_pipeline_props "https://github.com/acme/widgets")).
  reflexivity.
Defined.

Lemma or_string_cases (v : option string) (dflt : string) :
  (forall s, v = Some s -> s <> EmptyString -> JS.or_string v dflt = s) /\
  (v = None -> JS.or_string v dflt = dflt) /\
  (v = Some EmptyString -> JS.or_string v dflt = dflt).
Proof.
  unfold JS.or_string, JS.truthy_string. split; [|split].
  - intros s E Hs. subst v. apply String.eqb_neq in Hs. now rewrite Hs.
  - intros E. now subst v.
  - intros E. now subst v.
Qed.

(** C6. For an accepted source URL, an identifier [id] and a deploy action
    the library accepts, the constructor completes and the construct
    exports exactly three values: the name of the publish bucket as
    [cdk-pipeline:<id>-bucket], the object key [cloud-assembly.zip] as
    [cdk-pipeline:<id>-object-key], and the toolchain version as
    [cdk-pipeline:<id>-toolchain-version]. The exported version is the
    caller's [version] when one is given and not empty, and [latest] when
    it is absent or empty. *)
Theorem C6_exports id props :
  JS.startsWith (PipelineProps.source props) github_prefix = true ->
  library_accepts id props = true ->
  exists children v,
    Pipeline.constructor id props [] = (Normal tt, children) /\
    In (Bucket "Publish" true) children /\
    Pipeline.exports children =
      [ (bucketName "Publish", "cdk-pipeline:" ++ id ++ "-bucket");
        (Literal "cloud-assembly.zip", "cdk-pipeline:" ++ id ++ "-object-key");
        (Literal v, "cdk-pipeline:" ++ id ++ "-toolchain-version") ] /\
    (forall s, PipelineProps.version props = Some s -> s <> EmptyString -> v = s) /\
    (PipelineProps.version props = None -> v = "latest") /\
    (PipelineProps.version props = Some EmptyString -> v = "latest").
Proof.
  intros H _. exists (children_of id props),
    (JS.or_string (PipelineProps.version props) "latest").
  split; [now apply constructor_completes|].
  split; [accepted H; cbn; tauto|].
  split; [accepted H; reflexivity|].
  apply or_string_cases.
Qed.

Lemma C6_witness :
  exists children,
    Pipeline.constructor "App"
      (with_version (Some "1.2.3") (sample_pipeline_props "https://github.com/acme/widgets")) []
      = (Normal tt, children) /\
    In (Bucket "Publish" true) children /\
    Pipeline.exports children =
      [ (bucketName "Publish", "cdk-pipeline:App-bucket");
        (Literal "cloud-assembly.zip", "cdk-pipeline:App-object-key");
        (Literal "1.2.3", "cdk-pipeline:App-toolchain-version") ].
Proof.
  destruct (C6_exports "App"
              (with_version (Some "1.2.3")
                 (sample_pipeline_props "https://github.com/acme/widgets"))
              eq_refl eq_refl)
    as (children & v & Hc & Hb & He & Hv & _).
  exists children. split; [exact Hc|]. split; [exact Hb|].
  rewrite He. rewrite (Hv "1.2.3" eq_refl); [reflexivity|discriminate].
Defined.

(** C7. For an accepted source URL the Deploy stage holds one DeployAction,
    the one constructed from [admin: true] and the caller's stacks, version
    and exclusively options; its admin flag is true, and the value of the
    caller's own [admin] option (true, false or absent) changes nothing in
    what the constructor does. *)
Theorem C7_deploy_admin_hardcoded id props :
  JS.startsWith (PipelineProps.source props) github_prefix = true ->
  exists children stages d,
    Pipeline.constructor id props [] = (Normal tt, children) /\
    Pipeline.pipelines children = [stages] /\
    Pipeline.deployActions "Deploy" stages = [d] /\
    d = DeployAction.constructor
          {| DeployActionProps.stacks := PipelineProps.stacks props;
             DeployActionProps.exclusively := PipelineProps.exclusively props;
             DeployActionProps.admin := true;
             DeployActionProps.version := PipelineProps.version props;
             DeployActionProps.assembly := OutputOf "BuildDeploy" |} /\
    DeployAction.admin d = true /\
    (forall a st, Pipeline.constructor id (with_admin a props) st
                  = Pipeline.constructor id props st).
Proof.
  intros H. exists (children_of id props).
  do 2 eexists. split; [now apply constructor_completes|].
  split; [accepted H; reflexivity|].
  split; [reflexivity|]. split; [reflexivity|]. split; [reflexivity|].
  intros a st. apply admin_option_unused.
Qed.

Lemma C7_witness :
  exists children stages d,
    Pipeline.constructor "App" (sample_pipeline_props "https://github.com/acme/widgets") []
      = (Normal tt, children) /\
    Pipeline.pipelines children = [stages] /\
    Pipeline.deployActions "Deploy" stages = [d] /\
    d = DeployAction.constructor
          {| DeployActionProps.stacks := Some ["Network"; "Service"];
             DeployActionProps.exclusively := None;
             DeployActionProps.admin := true;
             DeployActionProps.version := None;
             DeployActionProps.assembly := OutputOf "BuildDeploy" |} /\
    DeployAction.admin d = true /\
    (forall a st,
       Pipeline.constructor "App"
         (with_admin a (sample_pipeline_props "https://github.com/acme/widgets")) st
       = Pipeline.constructor "App"
           (sample_pipeline_props "https://github.com/acme/widgets") st).
Proof.
  apply (C7_deploy_admin_hardcoded "App"
           (sample_pipeline_props "https://github.com/acme/widgets")).
  reflexivity.
Defined.

(* ===================================================================== *)
(** ** Further properties of the pipeline constructor *)
(* ===================================================================== *)

Lemma split_nonempty (s : string) (sep : ascii) : JS.split s sep <> [].
Proof. rewrite split_unfold. discriminate. Qed.

(** No piece of a split holds the separator. *)
Lemma before_first_clean (s : string) (sep : ascii) :
  after_first (before_first s sep) sep = None.
Proof.
  induction s as [|c s IH]; simpl; [reflexivity|].
  destruct (Ascii.eqb c sep) eqn:E; [reflexivity|].
  simpl. now rewrite E.
Qed.

(** Joining the pieces of a split with the separator gives the string back. *)
Lemma join_split (s : string) (sep : ascii) :
  JS.join (JS.split s sep) (String sep EmptyString) = s.
Proof.
  induction s as [|c s IH]; [reflexivity|].
  cbn [JS.split]. destruct (Ascii.eqb c sep) eqn:E.
  - apply Ascii.eqb_eq in E; subst c.
    pose proof (split_nonempty s sep) as Hne.
    destruct (JS.split s sep) as [|piece pieces]; [congruence|].
    change (JS.join (EmptyString :: piece :: pieces) (String sep EmptyString))
      with (String sep (JS.join (piece :: pieces) (String sep EmptyString))).
    now rewrite IH.
  - pose proof (split_nonempty s sep) as Hne.
    destruct (JS.split s sep) as [|piece pieces]; [congruence|].
    rewrite <- IH. destruct pieces; reflexivity.
Qed.

(** The source action of an accepted pipeline. *)
Lemma resolved_pieces id props :
  JS.startsWith (PipelineProps.source props) github_prefix = true ->
  exists g,
    resolved id props = [g] /\
    owner g = JS.elem (JS.split (remainder props) "/"%char) 0 /\
    repo g = JS.elem (JS.split (remainder props) "/"%char) 1.
Proof.
  intros H. unfold resolved. accepted H.
  eexists. split; [reflexivity|]. split; reflexivity.
Qed.

(** X3. For an accepted source URL the owner of the source action is always
    defined, while the repository is undefined exactly when nothing but an
    owner follows the prefix (the remainder holds no [/]). *)
Theorem X3_repo_undefined_iff id props :
  JS.startsWith (PipelineProps.source props) github_prefix = true ->
  exists g,
    resolved id props = [g] /\
    owner g <> None /\
    (repo g = None <-> after_first (remainder props) "/" = None).
Proof.
  intros H. destruct (resolved_pieces id props H) as (g & Hg & Ho & Hr).
  exists g. split; [exact Hg|].
  rewrite Ho, Hr, split_first, split_second.
  split; [discriminate|].
  destruct (after_first (remainder props) "/"); cbn; split; congruence.
Qed.

Lemma X3_witness :
  exists g,
    resolved "App" (sample_pipeline_props "https://github.com/acme") = [g] /\
    owner g <> None /\ repo g = None.
Proof.
  destruct (X3_repo_undefined_iff "App"
              (sample_pipeline_props "https://github.com/acme") eq_refl)
    as (g & Hg & Ho & Hr).
  exists g. split; [exact Hg|]. split; [exact Ho|].
  apply Hr. reflexivity.
Defined.

(** X4. Neither the owner nor the repository resolved from an accepted
    source URL contains a [/]. *)
Theorem X4_owner_repo_without_slash id props :
  JS.startsWith (PipelineProps.source props) github_prefix = true ->
  exists g,
    resolved id props = [g] /\
    (forall o, owner g = Some o -> after_first o "/" = None) /\
    (forall r, repo g = Some r -> after_first r "/" = None).
Proof.
  intros H. destruct (resolved_pieces id props H) as (g & Hg & Ho & Hr).
  exists g. split; [exact Hg|].
  rewrite Ho, Hr, split_first, split_second. split.
  - intros o E. inversion E. apply before_first_clean.
  - intros r E. destruct (after_first (remainder props) "/"); [|discriminate].
    inversion E. apply before_first_clean.
Qed.

Lemma X4_witness :
  exists g,
    resolved "App" (sample_pipeline_props "https://github.com/acme/widgets/tree/main") = [g] /\
    (forall o, owner g = Some o -> after_first o "/" = None) /\
    (forall r, repo g = Some r -> after_first r "/" = None).
Proof.
  apply (X4_owner_repo_without_slash "App"
           (sample_pipeline_props "https://github.com/acme/widgets/tree/main")).
  reflexivity.
Defined.

(** X5. When exactly one [/] follows the prefix, nothing of the URL is
    lost: the source is the prefix, the owner, a [/] and the repository. *)
Theorem X5_source_rebuilt_from_owner_and_repo id props r :
  JS.startsWith (PipelineProps.source props) github_prefix = true ->
  after_first (remainder props) "/" = Some r ->
  after_first r "/" = None ->
  exists g o,
    resolved id props = [g] /\
    owner g = Some o /\
    repo g = Some r /\
    PipelineProps.source props = github_prefix ++ o ++ "/" ++ r.
Proof.
  intros H Hr Hn. destruct (resolved_pieces id props H) as (g & Hg & Ho & Hrepo).
  exists g, (before_first (remainder props) "/"). split; [exact Hg|].
  split; [now rewrite Ho, split_first|].
  split; [rewrite Hrepo, split_second, Hr; cbn [option_map]; now rewrite no_cut|].
  destruct (first_cut "/" _ _ Hr) as [Hcut _].
  rewrite (startsWith_inv _ _ H) at 1. f_equal. exact Hcut.
Qed.

Lemma X5_witness :
  exists g o,
    resolved "App" (sample_pipeline_props "https://github.com/acme/widgets") = [g] /\
    owner g = Some o /\
    repo g = Some "widgets" /\
    "https://github.com/acme/widgets" = github_prefix ++ o ++ "/" ++ "widgets".
Proof.
  apply (X5_source_rebuilt_from_owner_and_repo "App"
           (sample_pipeline_props "https://github.com/acme/widgets") "widgets");
    reflexivity.
Defined.

Lemma or_string_nonempty (v : option string) (dflt : string) :
  dflt <> EmptyString -> JS.or_string v dflt <> EmptyString.
Proof.
  intros Hd. unfold JS.or_string, JS.truthy_string.
  destruct v as [s|]; [|exact Hd].
  destruct (String.eqb s EmptyString) eqn:E; cbn; [exact Hd|].
  now apply String.eqb_neq in E.
Qed.

(** X6. In an accepted pipeline the stages are wired to each other and to
    the constructs created beside them: the build action reads the output
    of the source action; the deploy and the publish action both read the
    output of the build action; the build action, the bucket the publish
    action writes to and the secret behind the OAuth token are children of
    the construct; and the exported bucket name and object key are the ones
    of the publish action, which does not extract. *)
Theorem X6_stage_wiring id props :
  JS.startsWith (PipelineProps.source props) github_prefix = true ->
  exists children src bld dep pub,
    Pipeline.constructor id props [] = (Normal tt, children) /\
    Pipeline.pipelines children =
      [[ {| name := "Source";  actions := [SourceAction src] |};
         {| name := "Build";   actions := [BuildStageAction bld] |};
         {| name := "Deploy";  actions := [DeployStageAction dep] |};
         {| name := "Publish"; actions := [PublishAction pub] |} ]] /\
    sourceArtifact (ba_props bld) = gh_outputArtifact src /\
    DeployAction.assembly dep = ba_outputArtifact bld /\
    pd_inputArtifact pub = ba_outputArtifact bld /\
    In (BuildActionConstruct bld) children /\
    In (Bucket (bucket pub) true) children /\
    oauthToken src = stringValue "OauthTokenSecret" /\
    In (SecretString "OauthTokenSecret" (PipelineProps.oauthSecret props)) children /\
    In (bucketName (bucket pub), "cdk-pipeline:" ++ id ++ "-bucket")
       (Pipeline.exports children) /\
    In (Literal (objectKey pub), "cdk-pipeline:" ++ id ++ "-object-key")
       (Pipeline.exports children) /\
    extract pub = false.
Proof.
  intros H. exists (children_of id props).
  do 4 eexists. split; [now apply constructor_completes|].
  split; [accepted H; reflexivity|].
  repeat (split; [reflexivity|]).
  accepted H. cbn. intuition auto.
Qed.

Lemma X6_witness :
  exists children src bld dep pub,
    Pipeline.constructor "App" (sample_pipeline_props "https://github.com/acme/widgets") []
      = (Normal tt, children) /\
    Pipeline.pipelines children =
      [[ {| name := "Source";  actions := [SourceAction src] |};
         {| name := "Build";   actions := [BuildStageAction bld] |};
         {| name := "Deploy";  actions := [DeployStageAction dep] |};
         {| name := "Publish"; actions := [PublishAction pub] |} ]] /\
    sourceArtifact (ba_props bld) = gh_outputArtifact src /\
    DeployAction.assembly dep = ba_outputArtifact bld /\
    pd_inputArtifact pub = ba_outputArtifact bld /\
    In (BuildActionConstruct bld) children /\
    In (Bucket (bucket pub) true) children /\
    oauthToken src = stringValue "OauthTokenSecret" /\
    In (SecretString "OauthTokenSecret" "github-token") children /\
    In (bucketName (bucket pub), "cdk-pipeline:App-bucket")
       (Pipeline.exports children) /\
    In (Literal (objectKey pub), "cdk-pipeline:App-object-key")
       (Pipeline.exports children) /\
    extract pub = false.
Proof.
  apply (X6_stage_wiring "App" (sample_pipeline_props "https://github.com/acme/widgets")).
  reflexivity.
Defined.

(** X7. The toolchain version an accepted pipeline exports is the one its
    deploy action installs: the exported value equals the action's toolchain
    version and the deploy command starts with
    [npx --package aws-cdk@<that version> ]. That version is the caller's
    [version] when one is given and not empty, and [latest] when it is
    absent or empty; it is never empty. *)
Theorem X7_exported_version_is_deployed_version id props :
  JS.startsWith (PipelineProps.source props) github_prefix = true ->
  library_accepts id props = true ->
  exists children stages d v,
    Pipeline.constructor id props [] = (Normal tt, children) /\
    Pipeline.pipelines children = [stages] /\
    Pipeline.deployActions "Deploy" stages = [d] /\
    In (Literal v, "cdk-pipeline:" ++ id ++ "-toolchain-version")
       (Pipeline.exports children) /\
    DeployAction.toolchainVersion d = v /\
    v <> EmptyString /\
    JS.startsWith (DeployAction.deployCommand d)
      ("npx --package aws-cdk@" ++ v ++ " ") = true /\
    (forall s, PipelineProps.version props = Some s -> s <> EmptyString -> v = s) /\
    (PipelineProps.version props = None -> v = "latest") /\
    (PipelineProps.version props = Some EmptyString -> v = "latest").
Proof.
  intros H _. exists (children_of id props).
  do 2 eexists. exists (JS.or_string (PipelineProps.version props) "latest").
  split; [now apply constructor_completes|].
  split; [accepted H; reflexivity|].
  split; [reflexivity|].
  split; [accepted H; cbn -[JS.or_string]; intuition auto|].
  split; [reflexivity|].
  split; [apply or_string_nonempty; discriminate|].
  split; [|apply or_string_cases].
  rewrite deployCommand_fresh.
  cbn [DeployActionProps.version DeployActionProps.exclusively DeployActionProps.stacks].
  set (v := JS.or_string (PipelineProps.version props) "latest").
  change (" -- cdk deploy " ++ ?x) with (" " ++ "-- cdk deploy " ++ x).
  rewrite <- (append_assoc v " "), <- (append_assoc "npx --package aws-cdk@").
  apply startsWith_app.
Qed.

Lemma X7_witness :
  exists children stages d,
    Pipeline.constructor "App"
      (with_version (Some "1.2.3") (sample_pipeline_props "https://github.com/acme/widgets")) []
      = (Normal tt, children) /\
    Pipeline.pipelines children = [stages] /\
    Pipeline.deployActions "Deploy" stages = [d] /\
    In (Literal "1.2.3", "cdk-pipeline:App-toolchain-version")
       (Pipeline.exports children) /\
    DeployAction.toolchainVersion d = "1.2.3" /\
    JS.startsWith (DeployAction.deployCommand d) "npx --package aws-cdk@1.2.3 " = true.
Proof.
  destruct (X7_exported_version_is_deployed_version "App"
              (with_version (Some "1.2.3")
                 (sample_pipeline_props "https://github.com/acme/widgets"))
              eq_refl eq_refl)
    as (children & stages & d & v & Hc & Hp & Hd & Hin & Ht & _ & Hs & Hv & _).
  assert (E : v = "1.2.3") by (apply Hv; [reflexivity|discriminate]).
  rewrite E in Hin, Ht, Hs.
  exists children, stages, d.
  split; [exact Hc|]. split; [exact Hp|]. split; [exact Hd|].
  split; [exact Hin|]. split; [exact Ht|exact Hs].
Defined.


(* ===================================================================== *)
(** ** Further properties of the deploy action *)
(* ===================================================================== *)

(** A text without the character [c] starts at the front of [v ++ c r]
    only if it starts at the front of [v]. *)
Lemma startsWith_cut (t v r : string) (c : ascii) :
  after_first t c = None ->
  JS.startsWith (v ++ String c r) t = JS.startsWith v t.
Proof.
  revert v; induction t as [|e t IH]; intros v Ht; [reflexivity|].
  cbn [after_first] in Ht.
  destruct (Ascii.eqb e c) eqn:E; [discriminate|].
  destruct v as [|d v]; cbn.
  - destruct (Ascii.eqb c e) eqn:E'; [|reflexivity].
    apply Ascii.eqb_eq in E'; subst. now rewrite Ascii.eqb_refl in E.
  - now rewrite IH.
Qed.

(** Such a text occurs in [v ++ c r] only inside [v] or inside [r]. *)
Lemma includes_cut (t v r : string) (c : ascii) :
  after_first t c = None ->
  JS.includes (v ++ String c r) t = JS.includes v t || JS.includes r t.
Proof.
  intros Ht. induction v as [|d v IH].
  - cbn [String.append JS.includes].
    change (String c r) with (EmptyString ++ String c r) at 1.
    rewrite startsWith_cut by assumption.
    now rewrite orb_false_r.
  - change (String d v ++ String c r) with (String d (v ++ String c r)).
    cbn [JS.includes].
    change (String d (v ++ String c r)) with (String d v ++ String c r).
    rewrite startsWith_cut by assumption.
    rewrite IH. now rewrite !orb_assoc.
Qed.

Lemma includes_join_none (t : string) (c : ascii) (names : list string) :
  t <> EmptyString ->
  after_first t c = None ->
  Forall (fun n => JS.includes n t = false) names ->
  JS.includes (JS.join names (String c EmptyString)) t = false.
Proof.
  intros Hne Ht Hall. induction Hall as [|x rest Hx Hrest IH].
  - destruct t; [congruence|reflexivity].
  - destruct rest as [|y rest']; [exact Hx|].
    change (JS.join (x :: y :: rest') (String c EmptyString))
      with (x ++ String c (JS.join (y :: rest') (String c EmptyString))).
    rewrite includes_cut by assumption.
    now rewrite Hx, IH.
Qed.

(** Without the flag, the token can only come from the version or from a
    stack name. *)
Lemma command_without_flag props :
  DeployActionProps.exclusively props = None ->
  JS.includes (JS.or_string (DeployActionProps.version props) "latest")
    exclusively_token = false ->
  (forall names, DeployActionProps.stacks props = Some names ->
     Forall (fun n => JS.includes n exclusively_token = false) names) ->
  JS.includes (DeployAction.deployCommand (DeployAction.constructor props))
    exclusively_token = false.
Proof.
  intros He Hv Hs.
  unfold DeployAction.deployCommand, DeployAction.constructor;
    cbn [DeployAction.exclusively DeployAction.toolchainVersion DeployAction.stacks].
  rewrite He.
  set (v := JS.or_string (DeployActionProps.version props) "latest") in *.
  set (S := match DeployActionProps.stacks props with
            | Some a => JS.join a " "
            | None => ""
            end).
  assert (HS : JS.includes S exclusively_token = false).
  { subst S. destruct (DeployActionProps.stacks props) as [names|]; [|reflexivity].
    apply includes_join_none; [discriminate|reflexivity|now apply Hs]. }
  unfold exclusively_token in *.
  cbn -[v S].
  rewrite includes_cut by reflexivity.
  rewrite Hv. cbn -[S]. exact HS.
Qed.

Lemma addToRolePolicy_at d ps bs p statement :
  DeployAction._project d = Some (List.length ps) ->
  DeployAction.addToRolePolicy statement (world_of d (ps ++ [p])%list bs) =
  (Normal tt, world_of d (ps ++ [codebuild.addToRolePolicy statement p])%list bs).
Proof.
  intros Hd.
  unfold DeployAction.addToRolePolicy, DeployAction.project, mbind, get, modify, world_of.
  cbn [DeployAction.this DeployAction.projects DeployAction.buildActions].
  rewrite Hd. unfold ret.
  cbn [DeployAction.this DeployAction.projects DeployAction.buildActions].
  now rewrite update_alloc.
Qed.

Lemma addStatements_bound d ps bs p statements :
  DeployAction._project d = Some (List.length ps) ->
  addStatements statements (world_of d (ps ++ [p])%list bs) =
  (Normal tt, world_of d (ps ++ [with_statements p statements])%list bs).
Proof.
  intros Hd. revert p; induction statements as [|s rest IH]; intros p.
  - cbn [addStatements]. unfold ret, with_statements.
    rewrite app_nil_r. now destruct p.
  - cbn [addStatements]. unfold mbind.
    rewrite addToRolePolicy_at by assumption.
    rewrite IH. unfold with_statements, codebuild.addToRolePolicy;
      cbn [codebuild.scope codebuild.id codebuild.environment codebuild.buildSpec
           codebuild.rolePolicy].
    now rewrite <- app_assoc.
Qed.

(** X9. [bind] on a fresh action appends one project and one build action
    to the stores and touches nothing already there. The build action wraps
    the very project that [project] returns, carries the deploy action's
    name and its assembly as input, and has been bound to the same stage
    and scope; the assembly has become the action's only input artifact;
    the configured fields of the action are unchanged. *)
Theorem X9_bind_wiring props ps bs stage scope :
  exists w1 p a ba,
    DeployAction.bind stage scope (DeployAction.fresh props ps bs) = (Normal tt, w1) /\
    DeployAction.project w1 = (Normal p, w1) /\
    DeployAction.buildAction w1 = (Normal a, w1) /\
    DeployAction.projects w1 = (ps ++ [deployProject props scope])%list /\
    DeployAction.buildActions w1 = (bs ++ [ba])%list /\
    nth_error (DeployAction.projects w1) p = Some (deployProject props scope) /\
    nth_error (DeployAction.buildActions w1) a = Some ba /\
    codebuild.project ba = p /\
    codebuild.actionName ba = DeployAction.actionName (DeployAction.this w1) /\
    codebuild.inputArtifact ba = DeployActionProps.assembly props /\
    codebuild.boundTo ba = Some (stage, scope) /\
    DeployAction.inputArtifacts (DeployAction.this w1)
      = [DeployActionProps.assembly props] /\
    DeployAction.actionName (DeployAction.this w1)
      = DeployAction.actionName (DeployAction.constructor props) /\
    DeployAction.stacks (DeployAction.this w1)
      = DeployAction.stacks (DeployAction.constructor props) /\
    DeployAction.admin (DeployAction.this w1) = DeployActionProps.admin props /\
    DeployAction.toolchainVersion (DeployAction.this w1)
      = DeployAction.toolchainVersion (DeployAction.constructor props) /\
    DeployAction.exclusively (DeployAction.this w1)
      = DeployAction.exclusively (DeployAction.constructor props).
Proof.
  do 4 eexists. split; [apply bind_fresh|].
  split; [reflexivity|]. split; [reflexivity|].
  split; [reflexivity|]. split; [reflexivity|].
  split; [apply nth_error_alloc|]. split; [apply nth_error_alloc|].
  repeat split; reflexivity.
Qed.

(** X10. Once the action is bound, any sequence of [addToRolePolicy] calls
    completes normally; the statements are appended to the execution role
    of the bound project in call order, after the statement [bind] added
    for an admin action; the action object, the other projects and the
    build actions stay as they were. *)
Theorem X10_statements_accumulate props ps bs stage scope statements :
  exists w2 proj,
    addStatements statements (bound props ps bs stage scope) = (Normal tt, w2) /\
    DeployAction.this w2 = DeployAction.this (bound props ps bs stage scope) /\
    DeployAction.buildActions w2
      = DeployAction.buildActions (bound props ps bs stage scope) /\
    DeployAction.projects w2 = (ps ++ [proj])%list /\
    DeployAction.boundProject w2 = Some proj /\
    codebuild.rolePolicy proj =
      ((if DeployActionProps.admin props then [allow_everything] else [])
         ++ statements)%list /\
    codebuild.buildSpec proj = codebuild.buildSpec (deployProject props scope).
Proof.
  pose (d := DeployAction.this (bound props ps bs stage scope)).
  pose (b := DeployAction.buildActions (bound props ps bs stage scope)).
  assert (E : bound props ps bs stage scope
              = world_of d (ps ++ [deployProject props scope])%list b)
    by (unfold d, b, bound; rewrite bind_fresh; reflexivity).
  assert (Hd : DeployAction._project d = Some (List.length ps))
    by (unfold d, bound; rewrite bind_fresh; reflexivity).
  exists (world_of d (ps ++ [with_statements (deployProject props scope) statements])%list b),
         (with_statements (deployProject props scope) statements).
  split; [rewrite E; now apply addStatements_bound|].
  split; [reflexivity|]. split; [reflexivity|]. split; [reflexivity|].
  split; [|split; reflexivity].
  unfold DeployAction.boundProject;
    cbn [world_of DeployAction.this DeployAction._project DeployAction.projects].
  rewrite Hd. apply nth_error_alloc.
Qed.

(** X11. As long as neither the version nor a stack name contains
    [--exclusively] themselves, the build command of the project created by
    [bind] contains that token exactly when the [exclusively] property was
    given, be it as true or as false. *)
Theorem X11_token_iff_property_given props ps bs stage scope :
  (forall v, DeployActionProps.version props = Some v ->
     JS.includes v exclusively_token = false) ->
  (forall names, DeployActionProps.stacks props = Some names ->
     Forall (fun n => JS.includes n exclusively_token = false) names) ->
  exists w1 proj command,
    DeployAction.bind stage scope (DeployAction.fresh props ps bs) = (Normal tt, w1) /\
    DeployAction.boundProject w1 = Some proj /\
    codebuild.build_commands (codebuild.buildSpec proj) = [command] /\
    (JS.includes command exclusively_token = true <->
     DeployActionProps.exclusively props <> None).
Proof.
  intros Hv Hs.
  exists (bound props ps bs stage scope), (deployProject props scope).
  eexists. split; [unfold bound; now rewrite bind_fresh|].
  split; [apply bound_project|]. split; [reflexivity|].
  destruct (DeployActionProps.exclusively props) as [b|] eqn:He.
  - split; [discriminate|]. intros _.
    now apply (exclusively_present_in_command props b).
  - split; [|congruence]. intros Hin.
    rewrite command_without_flag in Hin; [discriminate|exact He| |exact Hs].
    unfold JS.or_string, JS.truthy_string.
    destruct (DeployActionProps.version props) as [v|]; [|reflexivity].
    destruct (String.eqb v EmptyString); cbn [negb]; [reflexivity|].
    now apply Hv.
Qed.

Lemma X11_witness :
  exists w1 proj command,
    DeployAction.bind "Deploy" "Bootstrap"
      (DeployAction.fresh (sample_deploy_props (Some ["Network"; "Service"]) (Some false) true)
         [] [])
      = (Normal tt, w1) /\
    DeployAction.boundProject w1 = Some proj /\
    codebuild.build_commands (codebuild.buildSpec proj) = [command] /\
    (JS.includes command exclusively_token = true <-> Some false <> None).
Proof.
  apply (X11_token_iff_property_given
           (sample_deploy_props (Some ["Network"; "Service"]) (Some false) true)
           [] [] "Deploy" "Bootstrap").
  - intros v E. discriminate E.
  - intros names E. inversion E. repeat constructor.
Defined.

(** X12. When a non-empty stack list is given and no name in it contains a
    space, the build command of the project created by [bind] is a fixed
    head followed by a stack portion from which the names can be read back:
    cutting the portion at its spaces yields the names as given, in order. *)
Theorem X12_stacks_read_back props names ps bs stage scope :
  DeployActionProps.stacks props = Some names ->
  names <> [] ->
  Forall (fun x => after_first x " "%char = None) names ->
  exists w1 proj portion,
    DeployAction.bind stage scope (DeployAction.fresh props ps bs) = (Normal tt, w1) /\
    DeployAction.boundProject w1 = Some proj /\
    codebuild.build_commands (codebuild.buildSpec proj) =
      [ "npx --package aws-cdk@"
          ++ JS.or_string (DeployActionProps.version props) "latest"
          ++ " -- cdk deploy "
          ++ match DeployActionProps.exclusively props with
             | Some _ => "--exclusively"
             | None => ""
             end
          ++ " --require-approval=never " ++ portion ] /\
    JS.split portion " "%char = names.
Proof.
  intros Hs Hne Hall.
  exists (bound props ps bs stage scope), (deployProject props scope),
         (JS.join names " ").
  split; [unfold bound; now rewrite bind_fresh|].
  split; [apply bound_project|].
  split; [|now apply split_join].
  cbn [deployProject codebuild.buildSpec codebuild.build_commands].
  now rewrite deployCommand_fresh, Hs, join_concat.
Qed.

Lemma X12_witness :
  exists w1 proj portion,
    DeployAction.bind "Deploy" "Bootstrap"
      (DeployAction.fresh (sample_deploy_props (Some ["Network"; "Service"]) None false)
         [] [])
      = (Normal tt, w1) /\
    DeployAction.boundProject w1 = Some proj /\
    codebuild.build_commands (codebuild.buildSpec proj) =
      [ "npx --package aws-cdk@latest -- cdk deploy  --require-approval=never "
          ++ portion ] /\
    JS.split portion " "%char = ["Network"; "Service"].
Proof.
  apply (X12_stacks_read_back
           (sample_deploy_props (Some ["Network"; "Service"]) None false)
           ["Network"; "Service"] [] [] "Deploy" "Bootstrap").
  - reflexivity.
  - discriminate.
  - repeat constructor.
Defined.

Lemma new_DeployAction_inv props d :
  new_DeployAction props = Normal d ->
  d = DeployAction.constructor props /\
  valid_action_name (DeployAction.actionName d) = true.
Proof.
  unfold new_DeployAction.
  destruct (valid_action_name
              (DeployAction.actionName (DeployAction.constructor props))) eqn:E;
    [|discriminate].
  intros H; inversion H; subst. now split.
Qed.

(** X13. Two deploy actions constructed from different stack lists get
    different action names, as long as no stack name contains a [-]. *)
Theorem X13_action_name_tells_stacks_apart props1 props2 names1 names2 d1 d2 :
  new_DeployAction props1 = Normal d1 ->
  new_DeployAction props2 = Normal d2 ->
  DeployActionProps.stacks props1 = Some names1 ->
  DeployActionProps.stacks props2 = Some names2 ->
  Forall (fun x => after_first x "-"%char = None) names1 ->
  Forall (fun x => after_first x "-"%char = None) names2 ->
  names1 <> names2 ->
  DeployAction.actionName d1 <> DeployAction.actionName d2.
Proof.
  intros C1 C2 H1 H2 Hall1 Hall2 Hdiff E.
  destruct (new_DeployAction_inv _ _ C1) as [-> V1].
  destruct (new_DeployAction_inv _ _ C2) as [-> V2].
  unfold DeployAction.constructor in E, V1, V2;
    cbn [DeployAction.actionName] in E, V1, V2.
  rewrite H1 in E, V1. rewrite H2 in E, V2.
  assert (Hne1 : names1 <> []) by (intros ->; discriminate V1).
  assert (Hne2 : names2 <> []) by (intros ->; discriminate V2).
  apply Hdiff.
  rewrite <- (split_join "-"%char names1 Hne1 Hall1).
  rewrite <- (split_join "-"%char names2 Hne2 Hall2).
  now rewrite E.
Qed.

Lemma X13_witness :
  exists d1 d2,
    new_DeployAction (sample_deploy_props (Some ["Network"; "Service"]) None false)
      = Normal d1 /\
    new_DeployAction (sample_deploy_props (Some ["Network"]) None false)
      = Normal d2 /\
    DeployAction.actionName d1 <> DeployAction.actionName d2.
Proof.
  do 2 eexists. split; [reflexivity|]. split; [reflexivity|].
  apply (X13_action_name_tells_stacks_apart
           (sample_deploy_props (Some ["Network"; "Service"]) None false)
           (sample_deploy_props (Some ["Network"]) None false)
           ["Network"; "Service"] ["Network"]).
  - reflexivity.
  - reflexivity.
  - reflexivity.
  - reflexivity.
  - repeat constructor.
  - repeat constructor.
  - discriminate.
Defined.
